(** * quic-go (BGrewell fork): the Loco send algorithm, the CongestionAlgo
      stringer and the ack-handler factory

    Shallow embedding of
      - internal/congestion/algo.go  (generated [CongestionAlgo.String],
        the [CongestionAlgo] tags, and the [locoSender] controller), and
      - internal/ackhandler          ([NewAckHandler]).

    Go integers are carried by [Z] with the wrap-around of their width
    written out; a run-time panic is [None] in the option monad; methods on
    the pointer receiver [*locoSender] are computations in a state monad
    whose state holds the receiver and the log of calls made on the
    connection tracer. *)

From Stdlib Require Import ZArith List String Ascii Bool Lia DecimalString.
From Stdlib Require Import DecimalPos DecimalZ.
From ExtLib Require Import Structures.Monad Structures.MonadState.
From ExtLib Require Import Data.Monads.StateMonad Data.Monads.OptionMonad.
Import ListNotations MonadNotation.

Local Open Scope Z_scope.
Local Open Scope monad_scope.

(* ===================================================================== *)
(** ** Go run-time notions used by the sources                            *)
(* ===================================================================== *)

Module golang.

(** Two's-complement reduction to a signed 64-bit value: the result of
    every arithmetic operation on an [int64] (and on [int] on 64-bit
    targets). *)
Definition int64_wrap (z : Z) : Z := (z + 2 ^ 63) mod 2 ^ 64 - 2 ^ 63.

(** Reduction to an unsigned 64-bit value ([uint64]). *)
Definition uint64_wrap (z : Z) : Z := z mod 2 ^ 64.

Definition int64_min : Z := - 2 ^ 63.
Definition int64_max : Z := 2 ^ 63 - 1.

Definition in_int64 (z : Z) : Prop := int64_min <= z <= int64_max.

Definition int64_add (a b : Z) : Z := int64_wrap (a + b).
Definition int64_mul (a b : Z) : Z := int64_wrap (a * b).

(** [a[i]] on an array or slice: panics ([None]) unless [0 <= i < len(a)]. *)
Definition index {A : Type} (a : list A) (i : Z) : option A :=
  if (i <? 0) || (i >=? Z.of_nat (List.length a)) then None
  else nth_error a (Z.to_nat i).

(** [s[lo:hi]] on a string: panics unless [0 <= lo <= hi <= len(s)]. *)
Definition slice (s : string) (lo hi : Z) : option string :=
  if (lo <? 0) || (hi <? lo) || (Z.of_nat (String.length s) <? hi) then None
  else Some (substring (Z.to_nat lo) (Z.to_nat (hi - lo)) s).

End golang.

Module strconv.

(** [strconv.FormatInt(i, 10)]: the decimal digits of [i], most
    significant first, without leading zeros, preceded by [-] when [i] is
    negative. *)
Definition FormatInt_10 (i : Z) : string :=
  NilZero.string_of_int (Z.to_int i).

End strconv.

Module time.

(** [time.Time]: the three words of the Go struct.  [loc = None] is the
    nil location pointer. *)
Record Time : Type := mkTime
  { wall : Z
  ; ext  : Z
  ; loc  : option string }.

(** The composite literal [time.Time{}]. *)
Definition zero : Time := {| wall := 0; ext := 0; loc := None |}.

(** [Time.IsZero]: second and nanosecond counts are both zero.  Without
    the monotonic-clock bit (top bit of [wall]) the seconds are [ext] and
    the nanoseconds are the low 30 bits of [wall]. *)
Definition hasMonotonic (t : Time) : bool := Z.testbit (wall t) 63.
Definition nsec (t : Time) : Z := Z.land (wall t) (2 ^ 30 - 1).
Definition sec (t : Time) : Z :=
  if hasMonotonic t
  then 59453308800 + Z.land (Z.shiftr (wall t) 30) (2 ^ 33 - 1)
  else ext t.
Definition IsZero (t : Time) : bool := (sec t =? 0) && (nsec t =? 0).

End time.

(* ===================================================================== *)
(** ** internal/congestion/algo.go, first part: the stringer              *)
(* ===================================================================== *)

(** [type CongestionAlgo int] *)
Definition CongestionAlgo : Type := Z.

(** [const ( ALGO_UNKNOWN CongestionAlgo = iota; ALGO_CUBIC )] *)
Definition ALGO_UNKNOWN : CongestionAlgo := 0.
Definition ALGO_CUBIC : CongestionAlgo := 1.

Definition _CongestionAlgo_name : string := "ALGO_UNKNOWNALGO_CUBIC".

(** [[...]uint8{0, 12, 22}] *)
Definition _CongestionAlgo_index : list Z := [0; 12; 22].

(** [func (i CongestionAlgo) String() string].  The conversion [int64(i)]
    keeps the value of an [int]; [i+1] is [int] addition. *)
Definition CongestionAlgo_String (i : CongestionAlgo) : option string :=
  if (i <? 0) || (i >=? Z.of_nat (List.length _CongestionAlgo_index) - 1) then
    ret ("CongestionAlgo(" ++ strconv.FormatInt_10 i ++ ")")%string
  else
    lo <- golang.index _CongestionAlgo_index i ;;
    hi <- golang.index _CongestionAlgo_index (golang.int64_add i 1) ;;
    golang.slice _CongestionAlgo_name lo hi.

(** The compile-time guard of the generated file, [x[ALGO_UNKNOWN-0]] and
    [x[ALGO_CUBIC-1]] on [var x [1]struct{}]: both indices must be in
    range of a one-element array. *)
Definition stringer_guard : option (unit * unit) :=
  a <- golang.index [tt] (ALGO_UNKNOWN - 0) ;;
  b <- golang.index [tt] (ALGO_CUBIC - 1) ;;
  ret (a, b).

(* ===================================================================== *)
(** ** Declarations that algo.go takes from other packages                *)
(* ===================================================================== *)

Module protocol.

(** [protocol.ByteCount] and [protocol.PacketNumber] are named Go integer
    types; their declarations, and the constants below, live in package
    [protocol], outside the files embedded here.  They are kept as
    parameters: [ByteCount_wrap] is the reduction that the integer type
    applies to the result of an arithmetic operation, and the only fact
    used about it is that a 64-bit Go integer, signed or not, holds every
    value of [0, 2^63) exactly. *)
Class Decls : Type :=
  { ByteCount_wrap : Z -> Z
  ; ByteCount_wrap_exact :
      forall z, 0 <= z < 2 ^ 63 -> ByteCount_wrap z = z
  ; InvalidPacketNumber : Z
  ; MaxByteCount : Z
  ; MaxCongestionWindowPackets : Z }.

Definition ByteCount : Type := Z.
Definition PacketNumber : Type := Z.

(** [a * b] on two [ByteCount]s. *)
Definition ByteCount_mul {D : Decls} (a b : ByteCount) : ByteCount :=
  ByteCount_wrap (a * b).

(** The declarations as upstream quic-go has them: [int64] byte counts and
    packet numbers, [InvalidPacketNumber = -1],
    [MaxByteCount = 1<<62 - 1], 10000 packets at most in a window. *)
Definition int64_Decls : Decls :=
  {| ByteCount_wrap := golang.int64_wrap
   ; ByteCount_wrap_exact :=
       ltac:(intros z Hz; unfold golang.int64_wrap;
             rewrite Z.mod_small; lia)
   ; InvalidPacketNumber := -1
   ; MaxByteCount := 2 ^ 62 - 1
   ; MaxCongestionWindowPackets := 10000 |}.

(** The same with unsigned 64-bit byte counts, as the data model of the
    spec words them. *)
Definition uint64_Decls : Decls :=
  {| ByteCount_wrap := golang.uint64_wrap
   ; ByteCount_wrap_exact :=
       ltac:(intros z Hz; unfold golang.uint64_wrap;
             rewrite Z.mod_small; lia)
   ; InvalidPacketNumber := 2 ^ 64 - 1
   ; MaxByteCount := 2 ^ 62 - 1
   ; MaxCongestionWindowPackets := 10000 |}.

End protocol.

Module logging.

(** Modelled from the spec: [logging.CongestionState], declared in package
    [logging] (only its mock generator is among the sources).  The spec
    lists the states emitted to the tracer as SlowStart,
    CongestionAvoidance, RecoveryStart and ApplicationLimited. *)
Inductive CongestionState : Type :=
| CongestionStateSlowStart
| CongestionStateCongestionAvoidance
| CongestionStateRecovery
| CongestionStateApplicationLimited.

(** [==] on two congestion states. *)
Definition CongestionState_eqb (a b : CongestionState) : bool :=
  match a, b with
  | CongestionStateSlowStart, CongestionStateSlowStart
  | CongestionStateCongestionAvoidance, CongestionStateCongestionAvoidance
  | CongestionStateRecovery, CongestionStateRecovery
  | CongestionStateApplicationLimited, CongestionStateApplicationLimited =>
      true
  | _, _ => false
  end.

(** The value of a [CongestionState] field that no composite literal
    sets: the first constant of the enumeration. *)
Definition CongestionState_zero : CongestionState :=
  CongestionStateSlowStart.

(** A call received by a [logging.ConnectionTracer]; the only method the
    congestion package calls is [UpdatedCongestionState].  [T] is the
    type of tracer objects. *)
Inductive TracerCall (T : Type) : Type :=
| UpdatedCongestionState (tracer : T) (state : CongestionState).

Arguments UpdatedCongestionState {T} tracer state.

End logging.

Import protocol logging.

(** [type Bandwidth uint64], in bits per second. *)
Definition Bandwidth : Type := Z.

(* ===================================================================== *)
(** ** internal/congestion/algo.go, second part: the Loco sender          *)
(* ===================================================================== *)

Section WithCollaborators.

Context {D : protocol.Decls}.

(** Types of the collaborators, declared elsewhere in the repository:
    the [Clock] interface, [utils.RTTStats], [Cubic], [HybridSlowStart],
    [pacer] and the [logging.ConnectionTracer] interface.  A pointer or
    interface field that can be nil is an [option]. *)
Context {Clock RTTStats Cubic HybridSlowStart pacer_t ConnectionTracer : Type}.

(** [NewCubic(clock)] and the zero value of a [HybridSlowStart] struct. *)
Variable NewCubic : Clock -> Cubic.
Variable HybridSlowStart_zero : HybridSlowStart.

(** The package constant [initialCongestionWindow] (a number of packets),
    declared next to the Cubic sender; the struct field below has the name
    to itself here. *)
Variable const_initialCongestionWindow : ByteCount.

(** [type locoSender struct] *)
Record locoSender : Type := mkLocoSender
  { hybridSlowStart : HybridSlowStart
  ; rttStats : option RTTStats
  ; cubic : option Cubic
  ; pacer : option pacer_t
  ; clock : Clock
  ; reno : bool
  ; largestSentPacketNumber : PacketNumber
  ; largestAckedPacketNumber : PacketNumber
  ; largestSentAtLastCutback : PacketNumber
  ; lastCutbackExitedSlowstart : bool
  ; congestionWindow : ByteCount
  ; slowStartThreshold : ByteCount
  ; numAckedPackets : Z
  ; initialCongestionWindow : ByteCount
  ; initialMaxCongestionWindow : ByteCount
  ; maxDatagramSize : ByteCount
  ; lastState : CongestionState
  ; tracer : option ConnectionTracer }.

(** [l.maxDatagramSize = s] *)
Definition set_maxDatagramSize (s : ByteCount) (l : locoSender) : locoSender :=
  {| hybridSlowStart := hybridSlowStart l
   ; rttStats := rttStats l
   ; cubic := cubic l
   ; pacer := pacer l
   ; clock := clock l
   ; reno := reno l
   ; largestSentPacketNumber := largestSentPacketNumber l
   ; largestAckedPacketNumber := largestAckedPacketNumber l
   ; largestSentAtLastCutback := largestSentAtLastCutback l
   ; lastCutbackExitedSlowstart := lastCutbackExitedSlowstart l
   ; congestionWindow := congestionWindow l
   ; slowStartThreshold := slowStartThreshold l
   ; numAckedPackets := numAckedPackets l
   ; initialCongestionWindow := initialCongestionWindow l
   ; initialMaxCongestionWindow := initialMaxCongestionWindow l
   ; maxDatagramSize := s
   ; lastState := lastState l
   ; tracer := tracer l |}.

(** [l.lastState = new] *)
Definition set_lastState (new : CongestionState) (l : locoSender) : locoSender :=
  {| hybridSlowStart := hybridSlowStart l
   ; rttStats := rttStats l
   ; cubic := cubic l
   ; pacer := pacer l
   ; clock := clock l
   ; reno := reno l
   ; largestSentPacketNumber := largestSentPacketNumber l
   ; largestAckedPacketNumber := largestAckedPacketNumber l
   ; largestSentAtLastCutback := largestSentAtLastCutback l
   ; lastCutbackExitedSlowstart := lastCutbackExitedSlowstart l
   ; congestionWindow := congestionWindow l
   ; slowStartThreshold := slowStartThreshold l
   ; numAckedPackets := numAckedPackets l
   ; initialCongestionWindow := initialCongestionWindow l
   ; initialMaxCongestionWindow := initialMaxCongestionWindow l
   ; maxDatagramSize := maxDatagramSize l
   ; lastState := new
   ; tracer := tracer l |}.

(** The calls received so far by connection tracers, oldest first. *)
Definition TracerLog : Type := list (TracerCall ConnectionTracer).

(** What a method of [*locoSender] can read and write: the struct behind
    the receiver, and the tracer log. *)
Record World : Type := mkWorld
  { self : locoSender
  ; traced : TracerLog }.

Local Abbreviation M := (state World).

(** An assignment to a field of the receiver. *)
Definition update_self (f : locoSender -> locoSender) : M unit :=
  w <- get ;;
  put {| self := f (self w); traced := traced w |}.

(** A method call on a tracer. *)
Definition call_tracer (c : TracerCall ConnectionTracer) : M unit :=
  w <- get ;;
  put {| self := self w; traced := traced w ++ [c] |}.

(** [func newLocoSender(...) *locoSender], run on the tracer log. *)
Definition newLocoSender
    (clock : Clock)
    (rttStats : option RTTStats)
    (reno : bool)
    (initialMaxDatagramSize initialCongestionWindow
       initialMaxCongestionWindow : ByteCount)
    (tracer : option ConnectionTracer) : state TracerLog locoSender :=
  let l :=
    {| rttStats := rttStats
     ; largestSentPacketNumber := InvalidPacketNumber
     ; largestAckedPacketNumber := InvalidPacketNumber
     ; largestSentAtLastCutback := InvalidPacketNumber
     ; initialCongestionWindow := initialCongestionWindow
     ; initialMaxCongestionWindow := initialMaxCongestionWindow
     ; congestionWindow := initialCongestionWindow
     ; slowStartThreshold := MaxByteCount
     ; cubic := Some (NewCubic clock)
     ; clock := clock
     ; reno := reno
     ; tracer := tracer
     ; maxDatagramSize := initialMaxDatagramSize
     (* fields the literal leaves at their zero value *)
     ; hybridSlowStart := HybridSlowStart_zero
     ; pacer := None
     ; lastCutbackExitedSlowstart := false
     ; numAckedPackets := 0
     ; lastState := CongestionState_zero |} in
  match tracer with
  | Some t =>
      let l := set_lastState CongestionStateSlowStart l in
      log <- get ;;
      put (log ++ [UpdatedCongestionState t CongestionStateSlowStart]) ;;
      ret l
  | None => ret l
  end.

(** [func NewLocoSender(...) *locoSender] *)
Definition NewLocoSender
    (clock : Clock)
    (rttStats : option RTTStats)
    (initialMaxDatagramSize : ByteCount)
    (reno : bool)
    (tracer : option ConnectionTracer) : state TracerLog locoSender :=
  newLocoSender
    clock
    rttStats
    reno
    initialMaxDatagramSize
    (ByteCount_mul const_initialCongestionWindow initialMaxDatagramSize)
    (ByteCount_mul MaxCongestionWindowPackets initialMaxDatagramSize)
    tracer.

(** The world right after a constructor has run on the log [log]. *)
Definition constructed (c : state TracerLog locoSender) (log : TracerLog)
  : World :=
  let (l, log') := runState c log in {| self := l; traced := log' |}.

(** [func (l *locoSender) TimeUntilSend(_ protocol.ByteCount) time.Time] *)
Definition TimeUntilSend (_ : ByteCount) : M time.Time :=
  ret time.zero.

(** [func (l *locoSender) HasPacingBudget() bool] *)
Definition HasPacingBudget : M bool :=
  ret true.

(** [func (l *locoSender) maxCongestionWindow() protocol.ByteCount] *)
Definition maxCongestionWindow : M ByteCount :=
  l <- gets self ;;
  ret (ByteCount_mul (maxDatagramSize l) 10000).

(** [func (l *locoSender) minCongestionWindow() protocol.ByteCount] *)
Definition minCongestionWindow : M ByteCount :=
  l <- gets self ;;
  ret (ByteCount_mul (maxDatagramSize l) 1000).

(** [func (l *locoSender) OnPacketSent(...)] *)
Definition OnPacketSent
    (sentTime : time.Time)
    (_ : ByteCount)
    (packetNumber : PacketNumber)
    (bytes : ByteCount)
    (isRetransmittable : bool) : M unit :=
  ret tt.

(** [func (l *locoSender) CanSend(bytesInFlight protocol.ByteCount) bool] *)
Definition CanSend (bytesInFlight : ByteCount) : M bool :=
  ret true.

(** [func (l *locoSender) InRecovery() bool] *)
Definition InRecovery : M bool :=
  ret false.

(** [func (l *locoSender) InSlowStart() bool] *)
Definition InSlowStart : M bool :=
  ret false.

(** [func (l *locoSender) GetCongestionWindow() protocol.ByteCount] *)
Definition GetCongestionWindow : M ByteCount :=
  l <- gets self ;;
  ret (ByteCount_mul (maxDatagramSize l) 1000000).

(** [func (l *locoSender) MaybeExitSlowStart()] *)
Definition MaybeExitSlowStart : M unit :=
  ret tt.

(** [func (l *locoSender) OnPacketAcked(...)] *)
Definition OnPacketAcked
    (ackedPacketNumber : PacketNumber)
    (ackedBytes : ByteCount)
    (priorInFlight : ByteCount)
    (eventTime : time.Time) : M unit :=
  ret tt.

(** [func (l *locoSender) OnPacketLost(...)] *)
Definition OnPacketLost
    (packetNumber : PacketNumber)
    (lostBytes priorInFlight : ByteCount) : M unit :=
  ret tt.

(** [func (l *locoSender) maybeIncreaseCwnd(...)] *)
Definition maybeIncreaseCwnd
    (_ : PacketNumber)
    (ackedBytes : ByteCount)
    (priorInFlight : ByteCount)
    (eventTime : time.Time) : M unit :=
  ret tt.

(** [func (l *locoSender) isCwndLimited(bytesInFlight protocol.ByteCount) bool] *)
Definition isCwndLimited (bytesInFlight : ByteCount) : M bool :=
  ret false.

(** [func (l *locoSender) BandwidthEstimate() Bandwidth] *)
Definition BandwidthEstimate : M Bandwidth :=
  ret 100000000000.

(** [func (l *locoSender) OnRetransmissionTimeout(packetsRetransmitted bool)] *)
Definition OnRetransmissionTimeout (packetsRetransmitted : bool) : M unit :=
  ret tt.

(** [func (l *locoSender) OnConnectionMigration()] *)
Definition OnConnectionMigration : M unit :=
  ret tt.

(** [func (l *locoSender) maybeTraceStateChange(new logging.CongestionState)] *)
Definition maybeTraceStateChange (new : CongestionState) : M unit :=
  l <- gets self ;;
  match tracer l with
  | None => ret tt
  | Some t =>
      if CongestionState_eqb new (lastState l) then ret tt
      else
        call_tracer (UpdatedCongestionState t new) ;;
        update_self (set_lastState new)
  end.

(** [func (l *locoSender) SetMaxDatagramSize(s protocol.ByteCount)] *)
Definition SetMaxDatagramSize (s : ByteCount) : M unit :=
  update_self (set_maxDatagramSize s).


(** *** Sequences of calls

    The exported methods of [*locoSender] are what the rest of the
    repository can call on a Loco sender: the [SendAlgorithm] and
    [SendAlgorithmWithDebugInfos] method sets, [BandwidthEstimate] and
    [OnConnectionMigration].  The unexported methods have no call site in
    the file. *)
Inductive Call : Type :=
| CallTimeUntilSend (bytesInFlight : ByteCount)
| CallHasPacingBudget
| CallOnPacketSent (sentTime : time.Time) (bytesInFlight : ByteCount)
    (packetNumber : PacketNumber) (bytes : ByteCount)
    (isRetransmittable : bool)
| CallCanSend (bytesInFlight : ByteCount)
| CallInRecovery
| CallInSlowStart
| CallGetCongestionWindow
| CallMaybeExitSlowStart
| CallOnPacketAcked (ackedPacketNumber : PacketNumber)
    (ackedBytes priorInFlight : ByteCount) (eventTime : time.Time)
| CallOnPacketLost (packetNumber : PacketNumber)
    (lostBytes priorInFlight : ByteCount)
| CallBandwidthEstimate
| CallOnRetransmissionTimeout (packetsRetransmitted : bool)
| CallOnConnectionMigration
| CallSetMaxDatagramSize (s : ByteCount).

(** A call whose result the caller drops. *)
Definition discard {A : Type} (c : M A) : M unit :=
  _ <- c ;; ret tt.

Definition exec (c : Call) : M unit :=
  match c with
  | CallTimeUntilSend b => discard (TimeUntilSend b)
  | CallHasPacingBudget => discard HasPacingBudget
  | CallOnPacketSent t b pn n r => OnPacketSent t b pn n r
  | CallCanSend b => discard (CanSend b)
  | CallInRecovery => discard InRecovery
  | CallInSlowStart => discard InSlowStart
  | CallGetCongestionWindow => discard GetCongestionWindow
  | CallMaybeExitSlowStart => MaybeExitSlowStart
  | CallOnPacketAcked pn n p t => OnPacketAcked pn n p t
  | CallOnPacketLost pn n p => OnPacketLost pn n p
  | CallBandwidthEstimate => discard BandwidthEstimate
  | CallOnRetransmissionTimeout r => OnRetransmissionTimeout r
  | CallOnConnectionMigration => OnConnectionMigration
  | CallSetMaxDatagramSize s => SetMaxDatagramSize s
  end.

(** The calls of [cs] in order. *)
Fixpoint run (cs : list Call) : M unit :=
  match cs with
  | [] => ret tt
  | c :: cs' => exec c ;; run cs'
  end.

(** The world after the calls [cs], started in [w]. *)
Definition after (cs : list Call) (w : World) : World :=
  execState (run cs) w.

(* ===================================================================== *)
(** ** internal/ackhandler: the factory                                   *)
(* ===================================================================== *)

(** Types declared elsewhere in the repository: the Cubic sender,
    [protocol.Perspective], [utils.Logger], [protocol.VersionNumber] and
    the received-packet handler. *)
Context {cubicSender Perspective Logger VersionNumber receivedPacketHandler : Type}.

(** [congestion.NewCubicSender], which may call the tracer as it builds. *)
Variable NewCubicSender :
  Clock -> option RTTStats -> ByteCount -> bool -> option ConnectionTracer ->
  state TracerLog cubicSender.

(** The clock and the Reno flag that the sent-packet handler hands to the
    controller it builds. *)
Variable DefaultClock : Clock.
Variable useReno : bool.

(** The two implementations of [congestion.SendAlgorithmWithDebugInfos]. *)
Inductive SendAlgorithmWithDebugInfos : Type :=
| CubicSender (c : cubicSender)
| LocoSender (l : locoSender).

(** Modelled from the spec: [sentPacketHandler] and [newSentPacketHandler]
    of package ackhandler, which are not among the sources.  The spec (4.7)
    has the factory construct a sent-packet handler, whose internals are
    external, from the initial packet number, the datagram size, the RTT
    statistics, the perspective, the tracer, the logger and the algorithm
    tag, and wire the chosen congestion controller into it, with the
    dispatch: Cubic gives a CubicSender, any other selector path a
    LocoSender. *)
Record sentPacketHandler : Type := mkSentPacketHandler
  { sph_initialPacketNumber : PacketNumber
  ; sph_rttStats : option RTTStats
  ; sph_perspective : Perspective
  ; sph_tracer : option ConnectionTracer
  ; sph_logger : Logger
  ; congestion : SendAlgorithmWithDebugInfos }.

(** Modelled from the spec: the constructor of the record above, with the
    dispatch on the algorithm tag stated in 4.7 of the spec. *)
Definition newSentPacketHandler
    (initialPacketNumber : PacketNumber)
    (initialMaxDatagramSize : ByteCount)
    (rttStats : option RTTStats)
    (pers : Perspective)
    (tracer : option ConnectionTracer)
    (logger : Logger)
    (congestionAlgo : CongestionAlgo) : state TracerLog sentPacketHandler :=
  cc <- (if congestionAlgo =? ALGO_CUBIC then
           c <- NewCubicSender DefaultClock rttStats initialMaxDatagramSize
                  useReno tracer ;;
           ret (CubicSender c)
         else
           l <- NewLocoSender DefaultClock rttStats initialMaxDatagramSize
                  useReno tracer ;;
           ret (LocoSender l)) ;;
  ret {| sph_initialPacketNumber := initialPacketNumber
       ; sph_rttStats := rttStats
       ; sph_perspective := pers
       ; sph_tracer := tracer
       ; sph_logger := logger
       ; congestion := cc |}.

(** [newReceivedPacketHandler(sph, rttStats, logger, version)], external. *)
Variable newReceivedPacketHandler :
  sentPacketHandler -> option RTTStats -> Logger -> VersionNumber ->
  receivedPacketHandler.

(** [func NewAckHandler(...) (SentPacketHandler, ReceivedPacketHandler)] *)
Definition NewAckHandler
    (initialPacketNumber : PacketNumber)
    (initialMaxDatagramSize : ByteCount)
    (rttStats : option RTTStats)
    (pers : Perspective)
    (tracer : option ConnectionTracer)
    (logger : Logger)
    (version : VersionNumber)
    (congestionAlgo : CongestionAlgo)
  : state TracerLog (sentPacketHandler * receivedPacketHandler) :=
  sph <- newSentPacketHandler initialPacketNumber initialMaxDatagramSize
           rttStats pers tracer logger congestionAlgo ;;
  ret (sph, newReceivedPacketHandler sph rttStats logger version).


(* ===================================================================== *)
(** ** Vocabulary for whole runs                                          *)
(* ===================================================================== *)

(** The datagram size that the calls [cs] leave behind when they start
    from the size [s0]: the argument of the last [SetMaxDatagramSize]
    among them, and [s0] if there is none. *)
Fixpoint final_maxDatagramSize (cs : list Call) (s0 : ByteCount) : ByteCount :=
  match cs with
  | [] => s0
  | CallSetMaxDatagramSize s :: cs' => final_maxDatagramSize cs' s
  | _ :: cs' => final_maxDatagramSize cs' s0
  end.

(** One step of a run inside package congestion: an exported method, or
    the unexported [maybeTraceStateChange]. *)
Inductive Step : Type :=
| StepCall (c : Call)
| StepTrace (new : CongestionState).

Definition step (s : Step) : M unit :=
  match s with
  | StepCall c => exec c
  | StepTrace new => maybeTraceStateChange new
  end.

Fixpoint steps (ss : list Step) : M unit :=
  match ss with
  | [] => ret tt
  | s :: ss' => step s ;; steps ss'
  end.

(** The world after the steps [ss], started in [w]. *)
Definition after_steps (ss : list Step) (w : World) : World :=
  execState (steps ss) w.

(** The receiver and the argument of a logged tracer call. *)
Definition logged_tracer (c : TracerCall ConnectionTracer) : ConnectionTracer :=
  match c with UpdatedCongestionState t _ => t end.

Definition logged_state (c : TracerCall ConnectionTracer) : CongestionState :=
  match c with UpdatedCongestionState _ st => st end.

(** No state of the list is followed at once by the same state. *)
Fixpoint adjacent_distinct (l : list CongestionState) : bool :=
  match l with
  | a :: (b :: _) as tl => negb (CongestionState_eqb b a) && adjacent_distinct tl
  | _ => true
  end.


(** What holds of the tracer log of a sender with tracer [t] that started
    on an empty log. *)
Definition log_of (t : ConnectionTracer) (w : World) : Prop :=
  tracer (self w) = Some t /\
  Forall (fun c => logged_tracer c = t) (traced w) /\
  hd_error (map logged_state (traced w)) = Some CongestionStateSlowStart /\
  last (map logged_state (traced w)) CongestionStateSlowStart
    = lastState (self w) /\
  adjacent_distinct (map logged_state (traced w)) = true.

(** A sender without a tracer on a log that is still empty. *)
Definition silent (w : World) : Prop :=
  tracer (self w) = None /\ traced w = [].

(* ===================================================================== *)
(** ** Running the state monad                                            *)
(* ===================================================================== *)

Lemma execState_bind {A B : Type} (c : M A) (k : A -> M B) (w : World) :
  execState (bind c k) w = execState (k (evalState c w)) (execState c w).
Proof.
  unfold execState, evalState. simpl.
  destruct (runState c w) as [a w']. reflexivity.
Qed.

Lemma after_nil (w : World) : after [] w = w.
Proof. reflexivity. Qed.

Lemma after_cons (c : Call) (cs : list Call) (w : World) :
  after (c :: cs) w = after cs (execState (exec c) w).
Proof.
  unfold after.
  change (run (c :: cs)) with (bind (exec c) (fun _ => run cs)).
  apply execState_bind.
Qed.

Lemma after_app (cs1 cs2 : list Call) (w : World) :
  after (cs1 ++ cs2) w = after cs2 (after cs1 w).
Proof.
  revert w. induction cs1 as [| c cs1 IH]; intro w.
  - reflexivity.
  - rewrite <- app_comm_cons, !after_cons. apply IH.
Qed.

(** *** What one call does to the world *)

(** Every exported method but [SetMaxDatagramSize] returns in the world it
    was called in. *)
Lemma exec_other (c : Call) (w : World) :
  (forall s, c <> CallSetMaxDatagramSize s) -> execState (exec c) w = w.
Proof.
  intro Hc. destruct c; try reflexivity.
  exfalso. exact (Hc s eq_refl).
Qed.

Lemma exec_SetMaxDatagramSize (s : ByteCount) (w : World) :
  execState (exec (CallSetMaxDatagramSize s)) w =
  {| self := set_maxDatagramSize s (self w); traced := traced w |}.
Proof. reflexivity. Qed.

(** No exported method calls the tracer. *)
Lemma exec_traced (c : Call) (w : World) :
  traced (execState (exec c) w) = traced w.
Proof. destruct c; reflexivity. Qed.

Lemma after_traced (cs : list Call) (w : World) :
  traced (after cs w) = traced w.
Proof.
  revert w. induction cs as [| c cs IH]; intro w.
  - reflexivity.
  - rewrite after_cons, IH. apply exec_traced.
Qed.

(** The observers and the unexported helpers without a call site read
    the world at most and leave it as it is. *)
Lemma observers_pure (w : World) (b : ByteCount) :
  (forall pn n t, execState (maybeIncreaseCwnd pn n b t) w = w) /\
  execState (TimeUntilSend b) w = w /\
  execState HasPacingBudget w = w /\
  execState (CanSend b) w = w /\
  execState InRecovery w = w /\
  execState InSlowStart w = w /\
  execState GetCongestionWindow w = w /\
  execState BandwidthEstimate w = w /\
  execState maxCongestionWindow w = w /\
  execState minCongestionWindow w = w /\
  execState (isCwndLimited b) w = w.
Proof. split; [intros; reflexivity | repeat split]. Qed.

(** [maybeTraceStateChange], the one method that could call the tracer
    after construction: with a tracer and a state other than the last one
    it logs the new state and remembers it; otherwise it does nothing. *)
Lemma maybeTraceStateChange_spec (new : CongestionState) (w : World) :
  execState (maybeTraceStateChange new) w =
  match tracer (self w) with
  | Some t =>
      if CongestionState_eqb new (lastState (self w)) then w
      else {| self := set_lastState new (self w)
            ; traced := traced w ++ [UpdatedCongestionState t new] |}
  | None => w
  end.
Proof.
  unfold maybeTraceStateChange, execState. simpl.
  destruct (tracer (self w)) as [t |]; [| reflexivity].
  destruct (CongestionState_eqb new (lastState (self w))); reflexivity.
Qed.

(* ===================================================================== *)
(** ** The Loco sender: fixed answers                                     *)
(* ===================================================================== *)

(** C1.  In every state of a Loco sender, and so after any sequence [cs] of
    calls, and for every number of bytes in flight, [CanSend] is true,
    [HasPacingBudget] is true and [TimeUntilSend] is the zero time instant
    [time.Time{}], for which [IsZero] holds: send now. *)
Theorem loco_always_sends
    (w : World) (cs : list Call) (bytesInFlight : ByteCount) :
  evalState (CanSend bytesInFlight) (after cs w) = true /\
  evalState HasPacingBudget (after cs w) = true /\
  evalState (TimeUntilSend bytesInFlight) (after cs w) = time.zero /\
  time.IsZero (evalState (TimeUntilSend bytesInFlight) (after cs w)) = true.
Proof. repeat split. Qed.

(** C8.  In every state of a Loco sender, and so after any sequence [cs] of
    calls (losses and retransmission timeouts among them), [InSlowStart]
    and [InRecovery] are both false. *)
Theorem loco_never_in_slow_start_or_recovery (w : World) (cs : list Call) :
  evalState InSlowStart (after cs w) = false /\
  evalState InRecovery (after cs w) = false.
Proof. split; reflexivity. Qed.

(** C9.  In every state of a Loco sender, whatever its RTT statistics and
    whatever calls [cs] came before, [BandwidthEstimate] is the constant
    100,000,000,000 bits per second. *)
Theorem loco_BandwidthEstimate_constant (w : World) (cs : list Call) :
  evalState BandwidthEstimate (after cs w) = 100000000000 /\
  evalState BandwidthEstimate (after cs w) = 100 * 10 ^ 9.
Proof. split; reflexivity. Qed.

(* ===================================================================== *)
(** ** The Loco sender: the congestion window                             *)
(* ===================================================================== *)

(** The datagram size after a sequence of calls that ends in
    [SetMaxDatagramSize(s)]. *)
Lemma maxDatagramSize_after_set (cs : list Call) (s : ByteCount) (w : World) :
  maxDatagramSize (self (after (cs ++ [CallSetMaxDatagramSize s]) w)) = s.
Proof. rewrite after_app. reflexivity. Qed.

(** C3.  In every state of a Loco sender, and so after any sequence [cs] of
    calls, [GetCongestionWindow] returns the product, in [ByteCount]
    arithmetic, of the current [maxDatagramSize] and 1,000,000; once
    [SetMaxDatagramSize(s)] has run it is the product for [s]; and the
    product is the integer 1,000,000 * maxDatagramSize whenever that
    integer is a [ByteCount] (here: lies in [0, 2^63)). *)
Theorem GetCongestionWindow_value (w : World) (cs : list Call) :
  evalState GetCongestionWindow (after cs w) =
    ByteCount_mul (maxDatagramSize (self (after cs w))) 1000000 /\
  (forall s : ByteCount,
     evalState GetCongestionWindow (after (cs ++ [CallSetMaxDatagramSize s]) w) =
       ByteCount_mul s 1000000) /\
  (0 <= 1000000 * maxDatagramSize (self (after cs w)) < 2 ^ 63 ->
   evalState GetCongestionWindow (after cs w) =
     1000000 * maxDatagramSize (self (after cs w))) /\
  (forall s : ByteCount,
     0 <= 1000000 * s < 2 ^ 63 ->
     evalState GetCongestionWindow (after (cs ++ [CallSetMaxDatagramSize s]) w) =
       1000000 * s).
Proof.
  assert (Hmul : forall w' : World,
             evalState GetCongestionWindow w' =
             ByteCount_mul (maxDatagramSize (self w')) 1000000)
    by reflexivity.
  assert (Hexact : forall m : ByteCount,
             0 <= 1000000 * m < 2 ^ 63 ->
             ByteCount_mul m 1000000 = 1000000 * m).
  { intros m Hm. unfold ByteCount_mul.
    rewrite ByteCount_wrap_exact; lia. }
  repeat split.
  - intro s. rewrite Hmul, maxDatagramSize_after_set. reflexivity.
  - intro H. rewrite Hmul. apply Hexact, H.
  - intros s H. rewrite Hmul, maxDatagramSize_after_set. apply Hexact, H.
Qed.

(** C2, on the code.  A Loco sender fresh from [NewLocoSender] with a
    datagram size of 1200 bytes reports a congestion window of
    1,200,000,000 bytes, while its [maxCongestionWindow] is 12,000,000 and
    its [minCongestionWindow] 1,200,000: the window is above the maximum,
    so [min <= cwnd <= max] does not hold. *)
Theorem loco_window_above_max
    (clock : Clock) (rttStats : option RTTStats) (reno : bool)
    (tracer : option ConnectionTracer) (log : TracerLog) :
  evalState GetCongestionWindow
    (constructed (NewLocoSender clock rttStats 1200 reno tracer) log)
    = 1200000000 /\
  evalState maxCongestionWindow
    (constructed (NewLocoSender clock rttStats 1200 reno tracer) log)
    = 12000000 /\
  evalState minCongestionWindow
    (constructed (NewLocoSender clock rttStats 1200 reno tracer) log)
    = 1200000 /\
  ~ (evalState minCongestionWindow
       (constructed (NewLocoSender clock rttStats 1200 reno tracer) log)
     <= evalState GetCongestionWindow
       (constructed (NewLocoSender clock rttStats 1200 reno tracer) log)
     <= evalState maxCongestionWindow
       (constructed (NewLocoSender clock rttStats 1200 reno tracer) log)).
Proof.
  assert (Hmds : maxDatagramSize
            (self (constructed
                     (NewLocoSender clock rttStats 1200 reno tracer) log))
          = 1200)
    by (destruct tracer; reflexivity).
  assert (Hc : evalState GetCongestionWindow
            (constructed (NewLocoSender clock rttStats 1200 reno tracer) log)
          = 1200000000).
  { change (ByteCount_mul
              (maxDatagramSize
                 (self (constructed
                          (NewLocoSender clock rttStats 1200 reno tracer) log)))
              1000000 = 1200000000).
    rewrite Hmds. unfold ByteCount_mul. rewrite ByteCount_wrap_exact; lia. }
  assert (Hmax : evalState maxCongestionWindow
            (constructed (NewLocoSender clock rttStats 1200 reno tracer) log)
          = 12000000).
  { change (ByteCount_mul
              (maxDatagramSize
                 (self (constructed
                          (NewLocoSender clock rttStats 1200 reno tracer) log)))
              10000 = 12000000).
    rewrite Hmds. unfold ByteCount_mul. rewrite ByteCount_wrap_exact; lia. }
  assert (Hmin : evalState minCongestionWindow
            (constructed (NewLocoSender clock rttStats 1200 reno tracer) log)
          = 1200000).
  { change (ByteCount_mul
              (maxDatagramSize
                 (self (constructed
                          (NewLocoSender clock rttStats 1200 reno tracer) log)))
              1000 = 1200000).
    rewrite Hmds. unfold ByteCount_mul. rewrite ByteCount_wrap_exact; lia. }
  rewrite Hc, Hmax, Hmin. repeat split. lia.
Qed.

(** The defect behind C2 at every usual datagram size: whenever the
    datagram size is positive and the window fits a [ByteCount], the
    reported window is above [maxCongestionWindow] (a hundred times it). *)
Lemma loco_window_hundred_times_max (w : World) :
  0 < maxDatagramSize (self w) ->
  1000000 * maxDatagramSize (self w) < 2 ^ 63 ->
  evalState GetCongestionWindow w = 100 * evalState maxCongestionWindow w /\
  evalState maxCongestionWindow w < evalState GetCongestionWindow w.
Proof.
  intros Hpos Hfit.
  change (evalState GetCongestionWindow w)
    with (ByteCount_mul (maxDatagramSize (self w)) 1000000).
  change (evalState maxCongestionWindow w)
    with (ByteCount_mul (maxDatagramSize (self w)) 10000).
  unfold ByteCount_mul. rewrite !ByteCount_wrap_exact by lia. lia.
Qed.

(* ===================================================================== *)
(** ** The Loco sender: what the methods change                           *)
(* ===================================================================== *)

(** C4.  [OnPacketSent], [OnPacketAcked], [OnPacketLost],
    [OnRetransmissionTimeout], [OnConnectionMigration] and
    [MaybeExitSlowStart] return in the world they were called in, so every
    field of the sender is as before (and the tracer got no call);
    [SetMaxDatagramSize(s)] sets [maxDatagramSize] to [s] and leaves every
    other field, the congestion window, the slow-start threshold and the
    three packet numbers among them, as before. *)
Theorem loco_frame (w : World) :
  (forall sentTime bytesInFlight packetNumber bytes isRetransmittable,
     execState
       (OnPacketSent sentTime bytesInFlight packetNumber bytes
          isRetransmittable) w = w) /\
  (forall ackedPacketNumber ackedBytes priorInFlight eventTime,
     execState
       (OnPacketAcked ackedPacketNumber ackedBytes priorInFlight eventTime) w
     = w) /\
  (forall packetNumber lostBytes priorInFlight,
     execState (OnPacketLost packetNumber lostBytes priorInFlight) w = w) /\
  (forall packetsRetransmitted,
     execState (OnRetransmissionTimeout packetsRetransmitted) w = w) /\
  execState OnConnectionMigration w = w /\
  execState MaybeExitSlowStart w = w /\
  (forall s : ByteCount,
     maxDatagramSize (self (execState (SetMaxDatagramSize s) w)) = s /\
     congestionWindow (self (execState (SetMaxDatagramSize s) w))
       = congestionWindow (self w) /\
     slowStartThreshold (self (execState (SetMaxDatagramSize s) w))
       = slowStartThreshold (self w) /\
     largestSentPacketNumber (self (execState (SetMaxDatagramSize s) w))
       = largestSentPacketNumber (self w) /\
     largestAckedPacketNumber (self (execState (SetMaxDatagramSize s) w))
       = largestAckedPacketNumber (self w) /\
     largestSentAtLastCutback (self (execState (SetMaxDatagramSize s) w))
       = largestSentAtLastCutback (self w) /\
     hybridSlowStart (self (execState (SetMaxDatagramSize s) w))
       = hybridSlowStart (self w) /\
     rttStats (self (execState (SetMaxDatagramSize s) w))
       = rttStats (self w) /\
     cubic (self (execState (SetMaxDatagramSize s) w)) = cubic (self w) /\
     pacer (self (execState (SetMaxDatagramSize s) w)) = pacer (self w) /\
     clock (self (execState (SetMaxDatagramSize s) w)) = clock (self w) /\
     reno (self (execState (SetMaxDatagramSize s) w)) = reno (self w) /\
     lastCutbackExitedSlowstart (self (execState (SetMaxDatagramSize s) w))
       = lastCutbackExitedSlowstart (self w) /\
     numAckedPackets (self (execState (SetMaxDatagramSize s) w))
       = numAckedPackets (self w) /\
     initialCongestionWindow (self (execState (SetMaxDatagramSize s) w))
       = initialCongestionWindow (self w) /\
     initialMaxCongestionWindow (self (execState (SetMaxDatagramSize s) w))
       = initialMaxCongestionWindow (self w) /\
     lastState (self (execState (SetMaxDatagramSize s) w))
       = lastState (self w) /\
     tracer (self (execState (SetMaxDatagramSize s) w)) = tracer (self w) /\
     traced (execState (SetMaxDatagramSize s) w) = traced w).
Proof.
  destruct w as [l log].
  repeat match goal with
         | |- _ /\ _ => split
         | |- forall _, _ => intro
         end; reflexivity.
Qed.

(* ===================================================================== *)
(** ** The Loco sender: construction and the tracer                       *)
(* ===================================================================== *)

(** C7.  The sender that [newLocoSender] returns has [slowStartThreshold]
    equal to [MaxByteCount], [congestionWindow] equal to the initial
    congestion window it was given, and [largestSentPacketNumber],
    [largestAckedPacketNumber] and [largestSentAtLastCutback] all equal to
    [InvalidPacketNumber]; through [NewLocoSender] the initial congestion
    window is the package constant times the datagram size. *)
Theorem newLocoSender_initial_fields
    (clock : Clock) (rttStats : option RTTStats) (reno : bool)
    (initialMaxDatagramSize initialCongestionWindow
       initialMaxCongestionWindow : ByteCount)
    (tracer : option ConnectionTracer) (log : TracerLog) :
  slowStartThreshold
    (evalState
       (newLocoSender clock rttStats reno initialMaxDatagramSize
          initialCongestionWindow initialMaxCongestionWindow tracer) log)
    = MaxByteCount /\
  congestionWindow
    (evalState
       (newLocoSender clock rttStats reno initialMaxDatagramSize
          initialCongestionWindow initialMaxCongestionWindow tracer) log)
    = initialCongestionWindow /\
  largestSentPacketNumber
    (evalState
       (newLocoSender clock rttStats reno initialMaxDatagramSize
          initialCongestionWindow initialMaxCongestionWindow tracer) log)
    = InvalidPacketNumber /\
  largestAckedPacketNumber
    (evalState
       (newLocoSender clock rttStats reno initialMaxDatagramSize
          initialCongestionWindow initialMaxCongestionWindow tracer) log)
    = InvalidPacketNumber /\
  largestSentAtLastCutback
    (evalState
       (newLocoSender clock rttStats reno initialMaxDatagramSize
          initialCongestionWindow initialMaxCongestionWindow tracer) log)
    = InvalidPacketNumber /\
  congestionWindow
    (evalState
       (NewLocoSender clock rttStats initialMaxDatagramSize reno tracer) log)
    = ByteCount_mul const_initialCongestionWindow initialMaxDatagramSize /\
  slowStartThreshold
    (evalState
       (NewLocoSender clock rttStats initialMaxDatagramSize reno tracer) log)
    = MaxByteCount.
Proof. destruct tracer; repeat split. Qed.

(** C5.  Construction with a tracer [t] adds exactly one call to the
    tracer log, [t.UpdatedCongestionState(SlowStart)]; construction with a
    nil tracer adds none; and no sequence [cs] of calls on the sender adds
    any call afterwards. *)
Theorem loco_tracer_events
    (clock : Clock) (rttStats : option RTTStats) (reno : bool)
    (initialMaxDatagramSize initialCongestionWindow
       initialMaxCongestionWindow : ByteCount)
    (tracer : option ConnectionTracer) (log : TracerLog) (cs : list Call) :
  traced
    (constructed
       (newLocoSender clock rttStats reno initialMaxDatagramSize
          initialCongestionWindow initialMaxCongestionWindow tracer) log)
  = match tracer with
    | Some t => log ++ [UpdatedCongestionState t CongestionStateSlowStart]
    | None => log
    end /\
  traced
    (after cs
       (constructed
          (newLocoSender clock rttStats reno initialMaxDatagramSize
             initialCongestionWindow initialMaxCongestionWindow tracer) log))
  = traced
      (constructed
         (newLocoSender clock rttStats reno initialMaxDatagramSize
            initialCongestionWindow initialMaxCongestionWindow tracer) log).
Proof.
  split.
  - destruct tracer; reflexivity.
  - apply after_traced.
Qed.

(* ===================================================================== *)
(** ** The ack-handler factory                                            *)
(* ===================================================================== *)

(** C6.  [NewAckHandler] returns the sent-packet handler that
    [newSentPacketHandler] builds from its arguments, together with the
    received-packet handler built from that very handler; the congestion
    controller wired into the sent-packet handler is a Cubic sender when
    the tag is [ALGO_CUBIC] and a Loco sender for every other tag. *)
Theorem NewAckHandler_dispatch
    (initialPacketNumber : PacketNumber)
    (initialMaxDatagramSize : ByteCount)
    (rttStats : option RTTStats)
    (pers : Perspective)
    (tracer : option ConnectionTracer)
    (logger : Logger)
    (version : VersionNumber)
    (congestionAlgo : CongestionAlgo)
    (log : TracerLog) :
  fst (evalState
         (NewAckHandler initialPacketNumber initialMaxDatagramSize rttStats
            pers tracer logger version congestionAlgo) log)
  = evalState
      (newSentPacketHandler initialPacketNumber initialMaxDatagramSize
         rttStats pers tracer logger congestionAlgo) log /\
  snd (evalState
         (NewAckHandler initialPacketNumber initialMaxDatagramSize rttStats
            pers tracer logger version congestionAlgo) log)
  = newReceivedPacketHandler
      (fst (evalState
              (NewAckHandler initialPacketNumber initialMaxDatagramSize
                 rttStats pers tracer logger version congestionAlgo) log))
      rttStats logger version /\
  (congestionAlgo = ALGO_CUBIC ->
   congestion
     (fst (evalState
             (NewAckHandler initialPacketNumber initialMaxDatagramSize
                rttStats pers tracer logger version congestionAlgo) log))
   = CubicSender
       (evalState
          (NewCubicSender DefaultClock rttStats initialMaxDatagramSize
             useReno tracer) log)) /\
  (congestionAlgo <> ALGO_CUBIC ->
   congestion
     (fst (evalState
             (NewAckHandler initialPacketNumber initialMaxDatagramSize
                rttStats pers tracer logger version congestionAlgo) log))
   = LocoSender
       (evalState
          (NewLocoSender DefaultClock rttStats initialMaxDatagramSize
             useReno tracer) log)).
Proof.
  unfold NewAckHandler, newSentPacketHandler, evalState.
  destruct (Z.eqb_spec congestionAlgo ALGO_CUBIC) as [Heq | Hne]; simpl.
  - destruct (runState
                (NewCubicSender DefaultClock rttStats initialMaxDatagramSize
                   useReno tracer) log) as [c log'].
    simpl. split; [reflexivity | split; [reflexivity | split]];
      intro H; [reflexivity | contradiction].
  - destruct (runState
                (NewLocoSender DefaultClock rttStats initialMaxDatagramSize
                   useReno tracer) log) as [l log'].
    simpl. split; [reflexivity | split; [reflexivity | split]];
      intro H; [contradiction | reflexivity].
Qed.

(* ===================================================================== *)
(** ** Whole runs of the Loco sender                                      *)
(* ===================================================================== *)

Lemma set_maxDatagramSize_same (l : locoSender) :
  set_maxDatagramSize (maxDatagramSize l) l = l.
Proof. destruct l. reflexivity. Qed.

Lemma set_maxDatagramSize_twice (s s' : ByteCount) (l : locoSender) :
  set_maxDatagramSize s' (set_maxDatagramSize s l) = set_maxDatagramSize s' l.
Proof. reflexivity. Qed.

Lemma after_assigns (cs : list Call) (w : World) :
  after cs w =
  {| self :=
       set_maxDatagramSize
         (final_maxDatagramSize cs (maxDatagramSize (self w))) (self w)
   ; traced := traced w |}.
Proof.
  revert w. induction cs as [| c cs IH]; intro w.
  - simpl. rewrite set_maxDatagramSize_same. destruct w. reflexivity.
  - rewrite after_cons, IH.
    destruct c; try reflexivity.
Qed.

(** A whole sequence of exported calls amounts to one assignment: the
    sender ends as it started but for [maxDatagramSize], which holds the
    argument of the last [SetMaxDatagramSize] of the sequence (and its old
    value if the sequence has none); the tracer log is as it was. *)
Theorem after_collapses (cs : list Call) (w : World) :
  after cs w =
  {| self :=
       set_maxDatagramSize
         (final_maxDatagramSize cs (maxDatagramSize (self w))) (self w)
   ; traced := traced w |}.
Proof. apply after_assigns. Qed.

Lemma exec_as_after (c : Call) (w : World) :
  execState (exec c) w = after [c] w.
Proof. rewrite after_cons, after_nil. reflexivity. Qed.

(** The datagram size after a run depends on the calls and on the size
    before, and on nothing else of the sender. *)
Lemma maxDatagramSize_after (cs : list Call) (w : World) :
  maxDatagramSize (self (after cs w))
  = final_maxDatagramSize cs (maxDatagramSize (self w)).
Proof. rewrite after_assigns. reflexivity. Qed.

(** What the observers answer depends on the datagram size alone: two
    senders of the same [maxDatagramSize], however else they differ (RTT
    statistics, congestion window and threshold fields, packet numbers,
    Reno flag, tracer), give the same answers after the same calls. *)
Theorem observers_read_maxDatagramSize_only
    (w w' : World) (cs : list Call) (bytesInFlight : ByteCount) :
  maxDatagramSize (self w) = maxDatagramSize (self w') ->
  evalState GetCongestionWindow (after cs w)
    = evalState GetCongestionWindow (after cs w') /\
  evalState maxCongestionWindow (after cs w)
    = evalState maxCongestionWindow (after cs w') /\
  evalState minCongestionWindow (after cs w)
    = evalState minCongestionWindow (after cs w') /\
  evalState (CanSend bytesInFlight) (after cs w)
    = evalState (CanSend bytesInFlight) (after cs w') /\
  evalState (TimeUntilSend bytesInFlight) (after cs w)
    = evalState (TimeUntilSend bytesInFlight) (after cs w') /\
  evalState HasPacingBudget (after cs w)
    = evalState HasPacingBudget (after cs w') /\
  evalState InSlowStart (after cs w) = evalState InSlowStart (after cs w') /\
  evalState InRecovery (after cs w) = evalState InRecovery (after cs w') /\
  evalState BandwidthEstimate (after cs w)
    = evalState BandwidthEstimate (after cs w').
Proof.
  intro Hsame.
  assert (Hmds : maxDatagramSize (self (after cs w))
                 = maxDatagramSize (self (after cs w')))
    by (rewrite !maxDatagramSize_after, Hsame; reflexivity).
  change (evalState GetCongestionWindow (after cs w))
    with (ByteCount_mul (maxDatagramSize (self (after cs w))) 1000000).
  change (evalState maxCongestionWindow (after cs w))
    with (ByteCount_mul (maxDatagramSize (self (after cs w))) 10000).
  change (evalState minCongestionWindow (after cs w))
    with (ByteCount_mul (maxDatagramSize (self (after cs w))) 1000).
  rewrite Hmds. repeat split.
Qed.

(** For every datagram size that is not negative and whose window fits a
    [ByteCount], the three windows are ordered
    [minCongestionWindow <= maxCongestionWindow <= GetCongestionWindow],
    the maximum being ten times the minimum and the reported window a
    hundred times the maximum: the reported window respects the lower
    bound and exceeds the upper one as soon as the size is positive. *)
Theorem loco_windows_ordered (w : World) :
  0 <= maxDatagramSize (self w) ->
  1000000 * maxDatagramSize (self w) < 2 ^ 63 ->
  evalState minCongestionWindow w <= evalState maxCongestionWindow w /\
  evalState maxCongestionWindow w <= evalState GetCongestionWindow w /\
  evalState maxCongestionWindow w = 10 * evalState minCongestionWindow w /\
  evalState GetCongestionWindow w = 100 * evalState maxCongestionWindow w /\
  (0 < maxDatagramSize (self w) ->
   evalState maxCongestionWindow w < evalState GetCongestionWindow w).
Proof.
  intros Hnn Hfit.
  change (evalState GetCongestionWindow w)
    with (ByteCount_mul (maxDatagramSize (self w)) 1000000).
  change (evalState maxCongestionWindow w)
    with (ByteCount_mul (maxDatagramSize (self w)) 10000).
  change (evalState minCongestionWindow w)
    with (ByteCount_mul (maxDatagramSize (self w)) 1000).
  unfold ByteCount_mul. rewrite !ByteCount_wrap_exact by lia.
  repeat split; lia.
Qed.

(** The bookkeeping of a sender built by [NewLocoSender] is frozen for
    its lifetime: after any sequence of exported calls the congestion
    window field and the two initial windows are still the products
    computed from the datagram size given at construction (whatever
    [SetMaxDatagramSize] has set since), the threshold is still
    [MaxByteCount], the three packet numbers are still
    [InvalidPacketNumber], no packet has been counted, and the tracer is
    the one given. *)
Theorem loco_bookkeeping_frozen
    (clock : Clock) (rttStats : option RTTStats) (reno : bool)
    (initialMaxDatagramSize : ByteCount)
    (tracer : option ConnectionTracer) (log : TracerLog) (cs : list Call) :
  congestionWindow
    (self (after cs
             (constructed
                (NewLocoSender clock rttStats initialMaxDatagramSize reno
                   tracer) log)))
    = ByteCount_mul const_initialCongestionWindow initialMaxDatagramSize /\
  initialCongestionWindow
    (self (after cs
             (constructed
                (NewLocoSender clock rttStats initialMaxDatagramSize reno
                   tracer) log)))
    = ByteCount_mul const_initialCongestionWindow initialMaxDatagramSize /\
  initialMaxCongestionWindow
    (self (after cs
             (constructed
                (NewLocoSender clock rttStats initialMaxDatagramSize reno
                   tracer) log)))
    = ByteCount_mul MaxCongestionWindowPackets initialMaxDatagramSize /\
  slowStartThreshold
    (self (after cs
             (constructed
                (NewLocoSender clock rttStats initialMaxDatagramSize reno
                   tracer) log)))
    = MaxByteCount /\
  largestSentPacketNumber
    (self (after cs
             (constructed
                (NewLocoSender clock rttStats initialMaxDatagramSize reno
                   tracer) log)))
    = InvalidPacketNumber /\
  largestAckedPacketNumber
    (self (after cs
             (constructed
                (NewLocoSender clock rttStats initialMaxDatagramSize reno
                   tracer) log)))
    = InvalidPacketNumber /\
  largestSentAtLastCutback
    (self (after cs
             (constructed
                (NewLocoSender clock rttStats initialMaxDatagramSize reno
                   tracer) log)))
    = InvalidPacketNumber /\
  numAckedPackets
    (self (after cs
             (constructed
                (NewLocoSender clock rttStats initialMaxDatagramSize reno
                   tracer) log)))
    = 0 /\
  lastCutbackExitedSlowstart
    (self (after cs
             (constructed
                (NewLocoSender clock rttStats initialMaxDatagramSize reno
                   tracer) log)))
    = false /\
  maxDatagramSize
    (self (after cs
             (constructed
                (NewLocoSender clock rttStats initialMaxDatagramSize reno
                   tracer) log)))
    = final_maxDatagramSize cs initialMaxDatagramSize.
Proof.
  rewrite after_assigns. destruct tracer; repeat split.
Qed.

(* ===================================================================== *)
(** ** The tracing step                                                   *)
(* ===================================================================== *)

Lemma CongestionState_eqb_eq (a b : CongestionState) :
  CongestionState_eqb a b = true <-> a = b.
Proof. destruct a, b; simpl; split; intro H; congruence. Qed.

Lemma CongestionState_eqb_refl (a : CongestionState) :
  CongestionState_eqb a a = true.
Proof. apply CongestionState_eqb_eq. reflexivity. Qed.

Lemma after_steps_cons (s : Step) (ss : list Step) (w : World) :
  after_steps (s :: ss) w = after_steps ss (execState (step s) w).
Proof.
  unfold after_steps.
  change (steps (s :: ss)) with (bind (step s) (fun _ => steps ss)).
  apply execState_bind.
Qed.

(** Reporting the same state twice in a row is reporting it once: the
    second [maybeTraceStateChange] finds the state remembered and neither
    calls the tracer nor writes a field. *)
Theorem maybeTraceStateChange_idempotent (new : CongestionState) (w : World) :
  execState (maybeTraceStateChange new)
    (execState (maybeTraceStateChange new) w)
  = execState (maybeTraceStateChange new) w.
Proof.
  rewrite (maybeTraceStateChange_spec new w).
  destruct (tracer (self w)) as [t |] eqn:Ht.
  - destruct (CongestionState_eqb new (lastState (self w))) eqn:Hnew.
    + rewrite maybeTraceStateChange_spec, Ht, Hnew. reflexivity.
    + rewrite maybeTraceStateChange_spec. simpl. rewrite Ht.
      rewrite CongestionState_eqb_refl. reflexivity.
  - rewrite maybeTraceStateChange_spec, Ht. reflexivity.
Qed.

(** [maybeTraceStateChange] writes no field of the sender but [lastState],
    which ends equal to the reported state whenever the sender has a
    tracer; it keeps the calls already in the tracer log and adds at most
    one, and the windows the sender reports are as before. *)
Theorem maybeTraceStateChange_frame (new : CongestionState) (w : World) :
  self (execState (maybeTraceStateChange new) w)
    = set_lastState
        (lastState (self (execState (maybeTraceStateChange new) w)))
        (self w) /\
  (forall t, tracer (self w) = Some t ->
     lastState (self (execState (maybeTraceStateChange new) w)) = new) /\
  (tracer (self w) = None ->
     execState (maybeTraceStateChange new) w = w) /\
  (exists added,
     traced (execState (maybeTraceStateChange new) w) = traced w ++ added /\
     (List.length added <= 1)%nat) /\
  evalState GetCongestionWindow (execState (maybeTraceStateChange new) w)
    = evalState GetCongestionWindow w /\
  maxDatagramSize (self (execState (maybeTraceStateChange new) w))
    = maxDatagramSize (self w).
Proof.
  rewrite maybeTraceStateChange_spec.
  destruct w as [l log]. simpl.
  destruct (tracer l) as [t |] eqn:Ht;
    [destruct (CongestionState_eqb new (lastState l)) eqn:Hnew |];
    repeat match goal with |- _ /\ _ => split end; simpl;
    try reflexivity; try discriminate;
    try (destruct l; reflexivity).
  - intros t' _. symmetry. apply CongestionState_eqb_eq, Hnew.
  - exists []. rewrite app_nil_r. split; [reflexivity | simpl; lia].
  - exists [UpdatedCongestionState t new].
    split; [reflexivity | simpl; lia].
  - exists []. rewrite app_nil_r. split; [reflexivity | simpl; lia].
Qed.

(** *** The tracer log of a run *)

Lemma adjacent_distinct_snoc (l : list CongestionState) (d b : CongestionState) :
  adjacent_distinct l = true ->
  l <> [] ->
  CongestionState_eqb b (last l d) = false ->
  adjacent_distinct (l ++ [b]) = true.
Proof.
  induction l as [| a l IH]; intros Hl Hne Hb.
  - contradiction.
  - destruct l as [| a' l'].
    + simpl in *. rewrite Hb. reflexivity.
    + change (adjacent_distinct ((a :: a' :: l') ++ [b]))
        with (negb (CongestionState_eqb a' a)
              && adjacent_distinct ((a' :: l') ++ [b])).
      change (adjacent_distinct (a :: a' :: l'))
        with (negb (CongestionState_eqb a' a)
              && adjacent_distinct (a' :: l')) in Hl.
      apply andb_true_iff in Hl. destruct Hl as [Ha Hl].
      rewrite Ha. simpl andb.
      apply IH; [exact Hl | discriminate | exact Hb].
Qed.

Lemma log_of_step (t : ConnectionTracer) (s : Step) (w : World) :
  log_of t w -> log_of t (execState (step s) w).
Proof.
  intros (Ht & Hall & Hhd & Hlast & Hadj).
  destruct s as [c | new].
  - simpl step. rewrite exec_as_after, after_assigns.
    unfold log_of. simpl. auto.
  - simpl step. rewrite maybeTraceStateChange_spec, Ht.
    destruct (CongestionState_eqb new (lastState (self w))) eqn:Hnew.
    + unfold log_of. auto.
    + unfold log_of. simpl. rewrite map_app. simpl map.
      repeat split.
      * exact Ht.
      * apply Forall_app. split; [exact Hall |].
        constructor; [reflexivity | constructor].
      * destruct (map logged_state (traced w)); [discriminate | exact Hhd].
      * apply last_last.
      * apply (adjacent_distinct_snoc _ CongestionStateSlowStart).
        -- exact Hadj.
        -- destruct (map logged_state (traced w)); discriminate.
        -- rewrite Hlast. exact Hnew.
Qed.

Lemma silent_step (s : Step) (w : World) :
  tracer (self w) = None ->
  tracer (self (execState (step s) w)) = None /\
  traced (execState (step s) w) = traced w.
Proof.
  intro Ht. destruct s as [c | new].
  - simpl step. rewrite exec_as_after, after_assigns.
    simpl. auto.
  - simpl step. rewrite maybeTraceStateChange_spec, Ht. auto.
Qed.

(** From construction on an empty log and through any run of exported
    calls and tracing steps: a sender built without a tracer never produces
    a tracer call; for a sender built with the tracer [t], every logged
    call went to [t], the first one reports SlowStart, the last one reports
    the state the sender remembers in [lastState], and no call reports the
    state of the call just before it. *)
Theorem loco_tracer_log_of_run
    (clock : Clock) (rttStats : option RTTStats) (reno : bool)
    (initialMaxDatagramSize initialCongestionWindow
       initialMaxCongestionWindow : ByteCount)
    (tracer : option ConnectionTracer) (ss : list Step) :
  match tracer with
  | None =>
      traced
        (after_steps ss
           (constructed
              (newLocoSender clock rttStats reno initialMaxDatagramSize
                 initialCongestionWindow initialMaxCongestionWindow None)
              []))
      = []
  | Some t =>
      Forall (fun c => logged_tracer c = t)
        (traced
           (after_steps ss
              (constructed
                 (newLocoSender clock rttStats reno initialMaxDatagramSize
                    initialCongestionWindow initialMaxCongestionWindow
                    (Some t))
                 []))) /\
      hd_error
        (map logged_state
           (traced
              (after_steps ss
                 (constructed
                    (newLocoSender clock rttStats reno initialMaxDatagramSize
                       initialCongestionWindow initialMaxCongestionWindow
                       (Some t))
                    []))))
      = Some CongestionStateSlowStart /\
      last
        (map logged_state
           (traced
              (after_steps ss
                 (constructed
                    (newLocoSender clock rttStats reno initialMaxDatagramSize
                       initialCongestionWindow initialMaxCongestionWindow
                       (Some t))
                    []))))
        CongestionStateSlowStart
      = lastState
          (self
             (after_steps ss
                (constructed
                   (newLocoSender clock rttStats reno initialMaxDatagramSize
                      initialCongestionWindow initialMaxCongestionWindow
                      (Some t))
                   []))) /\
      adjacent_distinct
        (map logged_state
           (traced
              (after_steps ss
                 (constructed
                    (newLocoSender clock rttStats reno initialMaxDatagramSize
                       initialCongestionWindow initialMaxCongestionWindow
                       (Some t))
                    []))))
      = true
  end.
Proof.
  destruct tracer as [t |].
  - assert (H0 : log_of t
                   (constructed
                      (newLocoSender clock rttStats reno
                         initialMaxDatagramSize initialCongestionWindow
                         initialMaxCongestionWindow (Some t))
                      [])).
    { unfold log_of. simpl. repeat split.
      constructor; [reflexivity | constructor]. }
    revert H0.
    generalize (constructed
                  (newLocoSender clock rttStats reno initialMaxDatagramSize
                     initialCongestionWindow initialMaxCongestionWindow
                     (Some t))
                  []).
    induction ss as [| s ss IH]; intros w Hw.
    + destruct Hw as (_ & Hall & Hhd & Hlast & Hadj). auto.
    + rewrite after_steps_cons. apply IH, log_of_step, Hw.
  - assert (H0 : silent
                   (constructed
                      (newLocoSender clock rttStats reno
                         initialMaxDatagramSize initialCongestionWindow
                         initialMaxCongestionWindow None)
                      []))
      by (split; reflexivity).
    revert H0.
    generalize (constructed
                  (newLocoSender clock rttStats reno initialMaxDatagramSize
                     initialCongestionWindow initialMaxCongestionWindow None)
                  []).
    induction ss as [| s ss IH]; intros w [Ht Hlog].
    + exact Hlog.
    + rewrite after_steps_cons.
      destruct (silent_step s w Ht) as [Ht' Hlog'].
      apply IH. split; [exact Ht' | congruence].
Qed.

End WithCollaborators.

(* ===================================================================== *)
(** ** The stringer                                                       *)
(* ===================================================================== *)

(** The generated guard passes: the constants are still 0 and 1. *)
Lemma stringer_guard_passes : stringer_guard = Some (tt, tt).
Proof. reflexivity. Qed.

Example CongestionAlgo_String_2 :
  CongestionAlgo_String 2 = Some "CongestionAlgo(2)"%string.
Proof. reflexivity. Qed.

Example CongestionAlgo_String_neg :
  CongestionAlgo_String (-37) = Some "CongestionAlgo(-37)"%string.
Proof. reflexivity. Qed.

Example CongestionAlgo_String_min_int64 :
  CongestionAlgo_String golang.int64_min
  = Some "CongestionAlgo(-9223372036854775808)"%string.
Proof. reflexivity. Qed.

(** C10.  [CongestionAlgo.String] returns on every integer [i] and never
    indexes out of range (no panic, which would be [None]): the result is
    "ALGO_UNKNOWN" for 0, "ALGO_CUBIC" for 1, and for every other value,
    the negative ones included, "CongestionAlgo(" followed by the decimal
    rendering of [i] and ")". *)
Theorem CongestionAlgo_String_total (i : CongestionAlgo) :
  CongestionAlgo_String i =
  Some (if (i =? 0)%Z then "ALGO_UNKNOWN"
        else if (i =? 1)%Z then "ALGO_CUBIC"
        else "CongestionAlgo(" ++ strconv.FormatInt_10 i ++ ")")%string.
Proof.
  unfold CongestionAlgo_String.
  change (Z.of_nat (List.length _CongestionAlgo_index) - 1) with 2.
  rewrite Z.geb_leb.
  destruct (Z.ltb_spec i 0) as [Hneg | Hnn].
  - simpl orb. cbv iota.
    destruct (Z.eqb_spec i 0); [lia |].
    destruct (Z.eqb_spec i 1); [lia |].
    reflexivity.
  - destruct (Z.leb_spec 2 i) as [Hbig | Hsmall].
    + simpl orb. cbv iota.
      destruct (Z.eqb_spec i 0); [lia |].
      destruct (Z.eqb_spec i 1); [lia |].
      reflexivity.
    + assert (Hi : i = 0 \/ i = 1) by lia.
      destruct Hi; subst i; reflexivity.
Qed.

(** *** Distinct tags print differently *)

(** The three shapes of a printed tag. *)
Lemma CongestionAlgo_String_shape (i : CongestionAlgo) :
  CongestionAlgo_String i =
  Some (if (i =? 0)%Z then "ALGO_UNKNOWN"
        else if (i =? 1)%Z then "ALGO_CUBIC"
        else "CongestionAlgo(" ++ strconv.FormatInt_10 i ++ ")")%string.
Proof.
  unfold CongestionAlgo_String.
  change (Z.of_nat (List.length _CongestionAlgo_index) - 1) with 2.
  rewrite Z.geb_leb.
  destruct (Z.ltb_spec i 0) as [Hneg | Hnn];
    [| destruct (Z.leb_spec 2 i) as [Hbig | Hsmall]].
  - simpl orb. cbv iota.
    destruct (Z.eqb_spec i 0); [lia |].
    destruct (Z.eqb_spec i 1); [lia | reflexivity].
  - simpl orb. cbv iota.
    destruct (Z.eqb_spec i 0); [lia |].
    destruct (Z.eqb_spec i 1); [lia | reflexivity].
  - assert (Hi : i = 0 \/ i = 1) by lia.
    destruct Hi; subst i; reflexivity.
Qed.

Lemma string_length_append (s t : string) :
  String.length (s ++ t) = (String.length s + String.length t)%nat.
Proof. induction s as [| c s IH]; simpl; [reflexivity | now rewrite IH]. Qed.

Lemma string_append_cancel_r (s1 s2 t : string) :
  (s1 ++ t = s2 ++ t)%string -> s1 = s2.
Proof.
  revert s2. induction s1 as [| c s1 IH]; intros [| c2 s2] H.
  - reflexivity.
  - apply (f_equal String.length) in H. simpl in H.
    rewrite string_length_append in H. lia.
  - apply (f_equal String.length) in H. simpl in H.
    rewrite string_length_append in H. lia.
  - simpl in H. injection H as Hc Hs. subst c2.
    f_equal. apply IH, Hs.
Qed.

(** The decimal rendering tells integers apart. *)
Lemma FormatInt_10_inj (i j : Z) :
  strconv.FormatInt_10 i = strconv.FormatInt_10 j -> i = j.
Proof.
  unfold strconv.FormatInt_10. intro H.
  assert (Hparse : forall z : Z,
             NilZero.int_of_string (NilZero.string_of_int (Z.to_int z))
             = Some (Z.to_int z)).
  { intro z. apply NilZero.isi; destruct z; simpl; try discriminate;
      intro Hz; injection Hz as Hz;
      generalize (DecimalPos.Unsigned.to_uint_nonnil p); congruence. }
  apply DecimalZ.to_int_inj.
  assert (Hs : Some (Z.to_int i) = Some (Z.to_int j))
    by (rewrite <- !Hparse, H; reflexivity).
  now injection Hs.
Qed.

(** [CongestionAlgo.String] is one-to-one: two tags with the same printed
    form are the same tag, so a printed tag identifies the algorithm, and
    no out-of-range value prints as "ALGO_UNKNOWN" or "ALGO_CUBIC". *)
Theorem CongestionAlgo_String_inj (i j : CongestionAlgo) :
  CongestionAlgo_String i = CongestionAlgo_String j -> i = j.
Proof.
  rewrite !CongestionAlgo_String_shape. intro H. injection H as H.
  destruct (Z.eqb_spec i 0) as [Hi0 | Hi0];
    destruct (Z.eqb_spec i 1) as [Hi1 | Hi1];
    destruct (Z.eqb_spec j 0) as [Hj0 | Hj0];
    destruct (Z.eqb_spec j 1) as [Hj1 | Hj1];
    simpl in H; try lia; try discriminate H.
  repeat match type of H with
         | String ?c _ = String ?c _ => injection H as H
         end.
  apply FormatInt_10_inj, (string_append_cancel_r _ _ ")"), H.
Qed.

(* ===================================================================== *)
(** ** Concrete runs                                                      *)
(* ===================================================================== *)

(** The runs below use the 64-bit signed declarations. *)
#[local] Existing Instance int64_Decls.

(** A sender built with the tracer "qlog" and then driven: the tracer has
    received the one call made by the constructor. *)
Example loco_run_traced :
  traced
    (after
       [CallOnPacketSent time.zero 0 1 1200 true; CallOnPacketLost 1 1200 1200;
        CallOnRetransmissionTimeout true; CallSetMaxDatagramSize 1350;
        CallOnConnectionMigration; CallGetCongestionWindow]
       (constructed
          (NewLocoSender (pacer_t := unit) (fun _ : unit => tt) tt 32 tt
             (None : option unit) 1200 true (Some "qlog"%string))
          []))
  = [UpdatedCongestionState "qlog"%string CongestionStateSlowStart].
Proof. reflexivity. Qed.

(** [maybeTraceStateChange] would reach the tracer, had it a caller. *)
Example loco_maybeTraceStateChange_run :
  traced
    (execState (maybeTraceStateChange CongestionStateCongestionAvoidance)
       (constructed
          (NewLocoSender (pacer_t := unit) (fun _ : unit => tt) tt 32 tt
             (None : option unit) 1200 true (Some "qlog"%string))
          []))
  = [UpdatedCongestionState "qlog"%string CongestionStateSlowStart;
     UpdatedCongestionState "qlog"%string CongestionStateCongestionAvoidance].
Proof. reflexivity. Qed.

(** The fields of a fresh sender under the upstream declarations. *)
Example loco_fresh_fields :
  let l :=
    evalState
      (NewLocoSender (pacer_t := unit) (fun _ : unit => tt) tt 32 tt
         (None : option unit) 1200 true (None : option string)) [] in
  (congestionWindow l, slowStartThreshold l, largestSentPacketNumber l,
   initialMaxCongestionWindow l, maxDatagramSize l)
  = (38400, 4611686018427387903, -1, 12000000, 1200).
Proof. reflexivity. Qed.

(** [ByteCount] products are 64-bit products: they are the integer product
    as long as it fits, and wrap beyond, far above any datagram size. *)
Example ByteCount_mul_fits :
  ByteCount_mul 65535 1000000 = 65535000000.
Proof. reflexivity. Qed.

Example ByteCount_mul_wraps :
  ByteCount_mul (2 ^ 61) 1000000 = 0.
Proof. reflexivity. Qed.

(** A sender built for 1200-byte datagrams without a tracer, then told of
    a loss and a retransmission timeout, then moved to 1350-byte
    datagrams: the product 1,000,000 * 1350 is a [ByteCount], and the
    window is that product. *)
Lemma GetCongestionWindow_value_witness :
  0 <= 1000000 * 1350 < 2 ^ 63 /\
  evalState GetCongestionWindow
    (after
       ([CallOnPacketLost 3 1200 2400; CallOnRetransmissionTimeout true]
        ++ [CallSetMaxDatagramSize 1350])
       (constructed
          (NewLocoSender (D := int64_Decls) (pacer_t := unit)
             (fun _ : unit => tt) tt 32 tt (None : option unit)
             1200 true (None : option string))
          []))
  = 1000000 * 1350.
Proof.
  split; [lia |].
  apply (proj2 (proj2 (proj2
           (GetCongestionWindow_value (D := int64_Decls) (pacer_t := unit)
              (constructed
                 (NewLocoSender (D := int64_Decls) (pacer_t := unit)
                    (fun _ : unit => tt) tt 32 tt
                    (None : option unit) 1200 true (None : option string))
                 [])
              [CallOnPacketLost 3 1200 2400;
               CallOnRetransmissionTimeout true])))
         1350).
  lia.
Defined.

(** The factory on the two tags, with a Cubic constructor that leaves the
    tracer alone: [ALGO_CUBIC] wires the Cubic sender, [ALGO_UNKNOWN] a
    Loco sender. *)
Lemma NewAckHandler_dispatch_witness :
  (ALGO_CUBIC = ALGO_CUBIC /\
   congestion
     (fst (evalState
             (NewAckHandler (D := int64_Decls) (pacer_t := unit)
                (fun _ : unit => tt) tt 32
                (fun _ (_ : option unit) _ _ (_ : option string) => ret tt)
                tt true
                (fun _ _ (_ : unit) (_ : Z) => tt)
                0 1200 None tt None tt 1 ALGO_CUBIC) []))
   = CubicSender tt) /\
  (ALGO_UNKNOWN <> ALGO_CUBIC /\
   congestion
     (fst (evalState
             (NewAckHandler (D := int64_Decls) (pacer_t := unit)
                (cubicSender := unit)
                (fun _ : unit => tt) tt 32
                (fun _ (_ : option unit) _ _ (_ : option string) => ret tt)
                tt true
                (fun _ _ (_ : unit) (_ : Z) => tt)
                0 1200 None tt None tt 1 ALGO_UNKNOWN) []))
   = LocoSender
       (evalState
          (NewLocoSender (D := int64_Decls) (pacer_t := unit)
             (fun _ : unit => tt) tt 32 tt None 1200 true None) [])).
Proof.
  split; split.
  - reflexivity.
  - exact (proj1 (proj2 (proj2
             (NewAckHandler_dispatch (pacer_t := unit)
                (fun _ : unit => tt) tt 32
                (fun _ (_ : option unit) _ _ (_ : option string) => ret tt)
                tt true
                (fun _ _ (_ : unit) (_ : Z) => tt)
                0 1200 None tt None tt 1 ALGO_CUBIC [])))
           eq_refl).
  - discriminate.
  - refine (proj2 (proj2 (proj2
              (NewAckHandler_dispatch (pacer_t := unit)
                 (cubicSender := unit)
                 (fun _ : unit => tt) tt 32
                 (fun _ (_ : option unit) _ _ (_ : option string) => ret tt)
                 tt true
                 (fun _ _ (_ : unit) (_ : Z) => tt)
                 0 1200 None tt None tt 1 ALGO_UNKNOWN [])))
            _).
    discriminate.
Defined.

(** Two senders for 1200-byte datagrams that differ in the initial window
    constant, the Reno flag and the tracer report the same window after
    the same calls. *)
Lemma observers_read_maxDatagramSize_only_witness :
  evalState GetCongestionWindow
    (after [CallOnPacketLost 3 1200 2400; CallSetMaxDatagramSize 1350]
       (constructed
          (NewLocoSender (pacer_t := unit) (fun _ : unit => tt) tt 32 tt
             (None : option unit) 1200 true (None : option string))
          []))
  = evalState GetCongestionWindow
      (after [CallOnPacketLost 3 1200 2400; CallSetMaxDatagramSize 1350]
         (constructed
            (NewLocoSender (pacer_t := unit) (fun _ : unit => tt) tt 10 tt
               (None : option unit) 1200 false (Some "qlog"%string))
            [])).
Proof.
  refine (proj1
            (observers_read_maxDatagramSize_only
               (constructed
                  (NewLocoSender (pacer_t := unit) (fun _ : unit => tt) tt 32
                     tt (None : option unit) 1200 true
                     (None : option string))
                  [])
               (constructed
                  (NewLocoSender (pacer_t := unit) (fun _ : unit => tt) tt 10
                     tt (None : option unit) 1200 false
                     (Some "qlog"%string))
                  [])
               [CallOnPacketLost 3 1200 2400; CallSetMaxDatagramSize 1350]
               0 _)).
  reflexivity.
Defined.

(** The windows of a fresh sender for 1200-byte datagrams, in order. *)
Lemma loco_windows_ordered_witness :
  evalState minCongestionWindow
    (constructed
       (NewLocoSender (pacer_t := unit) (fun _ : unit => tt) tt 32 tt
          (None : option unit) 1200 true (None : option string))
       [])
  <= evalState maxCongestionWindow
       (constructed
          (NewLocoSender (pacer_t := unit) (fun _ : unit => tt) tt 32 tt
             (None : option unit) 1200 true (None : option string))
          []).
Proof.
  refine (proj1
            (loco_windows_ordered
               (constructed
                  (NewLocoSender (pacer_t := unit) (fun _ : unit => tt) tt 32
                     tt (None : option unit) 1200 true
                     (None : option string))
                  [])
               _ _)).
  - simpl. lia.
  - simpl. lia.
Defined.

(** The tracing step on a sender with the tracer "qlog": the reported
    state is the one remembered afterwards. *)
Lemma maybeTraceStateChange_frame_witness :
  lastState
    (self
       (execState (maybeTraceStateChange CongestionStateRecovery)
          (constructed
             (NewLocoSender (pacer_t := unit) (fun _ : unit => tt) tt 32 tt
                (None : option unit) 1200 true (Some "qlog"%string))
             [])))
  = CongestionStateRecovery.
Proof.
  refine (proj1 (proj2
            (maybeTraceStateChange_frame CongestionStateRecovery
               (constructed
                  (NewLocoSender (pacer_t := unit) (fun _ : unit => tt) tt 32
                     tt (None : option unit) 1200 true (Some "qlog"%string))
                  [])))
            "qlog"%string _).
  reflexivity.
Defined.

(** Equal printed forms, equal tags. *)
Lemma CongestionAlgo_String_inj_witness :
  CongestionAlgo_String (3 + 4) = CongestionAlgo_String 7 /\ 3 + 4 = 7.
Proof.
  split; [reflexivity |].
  apply (CongestionAlgo_String_inj (3 + 4) 7). reflexivity.
Defined.
